(** * Secure system resource of the kernel (k_system_resource.cpp) and the
      profile-select applet's completion path (applet_profile_select.cpp).

    Shallow embedding: [size_t] values and addresses are [Z] with 64-bit
    wrap-around written out where the C++ arithmetic can wrap.  The object
    state, the one Resource Limit involved and a trace of the calls made to
    the platform memory controller and to the Resource Limit are threaded
    explicitly.  A failed [ASSERT] is an [Aborted] outcome. *)

From Stdlib Require Import ZArith List Bool Lia.
From Stdlib Require Vector.
Import ListNotations.
Open Scope Z_scope.

(** ** ProfileSelect::SelectionComplete *)

Module ProfileSelect.

(** Common::UUID: an array of 16 bytes. *)
Definition UUID := Vector.t Z 16.

(** UiReturnArg (applet_profile_select.h): a u64 result followed by the
    selected UUID, 0x18 bytes. *)
Record UiReturnArg := mkUiReturnArg {
  result : Z;
  uuid_selected : UUID
}.

Definition sizeof_UiReturnArg : nat := 24.

(** Little-endian bytes of an [n]-byte integer. *)
Definition le_bytes (n : nat) (x : Z) : list Z :=
  List.map (fun i => Z.land (Z.shiftr x (8 * Z.of_nat i)) 255) (List.seq 0 n).

(** The object representation that memcpy copies out of [output]. *)
Definition object_bytes (o : UiReturnArg) : list Z :=
  le_bytes 8 (result o) ++ Vector.to_list (uuid_selected o).

(** The applet's state touched by SelectionComplete, with the broker's
    queue of storages pushed from the applet and its state-change signals.
    [status] holds the raw value of a Result; ResultSuccess is 0. *)
Record ProfileSelectState := mkProfileSelectState {
  status : Z;
  final_data : list Z;
  broker_out_data : list (list Z);
  broker_state_changed : nat
}.

Section Account.

(** Common::UUID::IsValid, Common::InvalidUUID and the raw value of
    Account::ResultCancelledByUser are declared outside this file's
    sources; the results hold for any of them. *)
Variable IsValid : UUID -> bool.
Variable InvalidUUID : UUID.
Variable ResultCancelledByUser_raw : Z.

Definition SelectionComplete (uuid : option UUID) (st : ProfileSelectState)
  : ProfileSelectState :=
  let '(st_status, output) :=
    match uuid with
    | Some u => if IsValid u then (status st, mkUiReturnArg 0 u)
                else (ResultCancelledByUser_raw,
                      mkUiReturnArg ResultCancelledByUser_raw InvalidUUID)
    | None => (ResultCancelledByUser_raw,
               mkUiReturnArg ResultCancelledByUser_raw InvalidUUID)
    end in
  (* final_data = std::vector<u8>(sizeof(UiReturnArg)); memcpy of output *)
  let data := List.firstn sizeof_UiReturnArg (object_bytes output) in
  (* PushNormalDataFromApplet(std::move(final_data)); SignalStateChanged() *)
  mkProfileSelectState st_status [] (broker_out_data st ++ [data])
    (S (broker_state_changed st)).

End Account.

End ProfileSelect.

(** ** The profile-select applet's lifecycle (applet_profile_select.cpp) *)

Module ProfileSelectApplet.
Import ProfileSelect.

Inductive ProfileSelectAppletVersion :=
| Version1 | Version2 | Version3 | VersionUnknown (raw : Z).

(** The fields of UiSettingsV1 / UiSettings read by Execute. *)
Record UiSettingsFields := mkUiSettingsFields {
  ui_mode : Z;
  ui_invalid_uid_list : list UUID;
  ui_display_options : list Z;
  ui_purpose : Z
}.

(** Core::Frontend::ProfileSelectParameters *)
Record ProfileSelectParameters := mkProfileSelectParameters {
  p_mode : Z;
  p_invalid_uid_list : list UUID;
  p_display_options : list Z;
  p_purpose : Z
}.

(** The applet object: the part SelectionComplete works on, the [complete]
    flag, the version and the two configurations copied in by Initialize,
    the broker's queue of storages pushed to the applet and the number of
    frontend Close calls. *)
Record AppletState := mkAppletState {
  complete : bool;
  ps : ProfileSelectState;
  profile_select_version : ProfileSelectAppletVersion;
  config_old : list Z;
  config : list Z;
  broker_in_data : list (list Z);
  frontend_closed : nat
}.

Definition with_ps (p : ProfileSelectState) (a : AppletState) : AppletState :=
  mkAppletState (complete a) p (profile_select_version a) (config_old a) (config a)
    (broker_in_data a) (frontend_closed a).

(** Modelled from the spec (section 6, the broker channel): the broker's
    PopNormalDataToApplet takes the oldest storage pushed to the applet and
    gives nullptr when there is none. *)
Definition PopNormalDataToApplet (q : list (list Z)) : option (list Z * list (list Z)) :=
  match q with
  | [] => None
  | d :: q' => Some (d, q')
  end.

(** The operations of the applet, the frontend's callback included. *)
Inductive Op :=
| OpInitialize
| OpExecute
| OpExecuteInteractive
| OpSelectionComplete (uuid : option UUID)
| OpRequestExit.

Section Applet.

Variable IsValid : UUID -> bool.
Variable InvalidUUID : UUID.
Variable ResultCancelledByUser_raw : Z.
(** Applet::Initialize (the applet base class, not under src/) reads the
    common arguments from the broker: it gives the library version and the
    rest of the queue, or [None] when it fails an assertion. *)
Variable Applet_Initialize :
  list (list Z) -> option (ProfileSelectAppletVersion * list (list Z)).
Variable sizeof_UiSettingsV1 sizeof_UiSettings : nat.
(** Field reads of the configurations copied in by memcpy. *)
Variable parse_UiSettingsV1 parse_UiSettings : list Z -> UiSettingsFields.
Variable UserSelectionPurpose_General : Z.

(** ProfileSelect::Initialize; [None] is a failed ASSERT or
    UNIMPLEMENTED_MSG (an ASSERT_MSG(false, ...)). *)
Definition Initialize (a : AppletState) : option AppletState :=
  (* complete = false; status = ResultSuccess; final_data.clear(); *)
  let p := ps a in
  let a := with_ps (mkProfileSelectState 0 [] (broker_out_data p) (broker_state_changed p))
             (mkAppletState false (ps a) (profile_select_version a) (config_old a)
                (config a) (broker_in_data a) (frontend_closed a)) in
  match Applet_Initialize (broker_in_data a) with
  | None => None
  | Some (version, q) =>
    (* ASSERT(user_config_storage != nullptr) *)
    match PopNormalDataToApplet q with
    | None => None
    | Some (user_config, q') =>
      let a := mkAppletState (complete a) (ps a) version (config_old a) (config a) q'
                 (frontend_closed a) in
      match version with
      | Version1 =>
        if Nat.eqb (length user_config) sizeof_UiSettingsV1 then
          Some (mkAppletState (complete a) (ps a) version user_config (config a) q'
                  (frontend_closed a))
        else None
      | Version2 | Version3 =>
        if Nat.eqb (length user_config) sizeof_UiSettings then
          Some (mkAppletState (complete a) (ps a) version (config_old a) user_config q'
                  (frontend_closed a))
        else None
      | VersionUnknown _ => None
      end
    end
  end.

Definition TransactionComplete (a : AppletState) : bool := complete a.

Definition GetStatus (a : AppletState) : Z := status (ps a).

(** ProfileSelect::Execute: the new state and the parameters handed to
    frontend.SelectProfile, if it is called. *)
Definition Execute (a : AppletState)
  : option (AppletState * option ProfileSelectParameters) :=
  if complete a then
    let p := ps a in
    Some (with_ps (mkProfileSelectState (status p) [] (broker_out_data p ++ [final_data p])
                     (broker_state_changed p)) a, None)
  else
    match profile_select_version a with
    | Version1 =>
      let c := parse_UiSettingsV1 (config_old a) in
      Some (a, Some (mkProfileSelectParameters (ui_mode c) (ui_invalid_uid_list c)
                       (ui_display_options c) UserSelectionPurpose_General))
    | Version2 | Version3 =>
      let c := parse_UiSettings (config a) in
      Some (a, Some (mkProfileSelectParameters (ui_mode c) (ui_invalid_uid_list c)
                       (ui_display_options c) (ui_purpose c)))
    | VersionUnknown _ => None
    end.

(** ProfileSelect::ExecuteInteractive: ASSERT_MSG(false, ...). *)
Definition ExecuteInteractive (a : AppletState) : option AppletState := None.

(** ProfileSelect::RequestExit: frontend.Close(), then success. *)
Definition RequestExit (a : AppletState) : AppletState * Z :=
  (mkAppletState (complete a) (ps a) (profile_select_version a) (config_old a) (config a)
     (broker_in_data a) (S (frontend_closed a)), 0).

Definition SelectionComplete_applet (uuid : option UUID) (a : AppletState) : AppletState :=
  with_ps (SelectionComplete IsValid InvalidUUID ResultCancelledByUser_raw uuid (ps a)) a.

Definition step (op : Op) (a : AppletState) : option AppletState :=
  match op with
  | OpInitialize => Initialize a
  | OpExecute => option_map fst (Execute a)
  | OpExecuteInteractive => ExecuteInteractive a
  | OpSelectionComplete uuid => Some (SelectionComplete_applet uuid a)
  | OpRequestExit => Some (fst (RequestExit a))
  end.

Fixpoint run (ops : list Op) (a : AppletState) : option AppletState :=
  match ops with
  | [] => Some a
  | op :: ops' => match step op a with Some a' => run ops' a' | None => None end
  end.

Definition is_selection_complete (op : Op) : bool :=
  match op with OpSelectionComplete _ => true | _ => false end.

(** A frontend callback without a valid UUID: the user cancelled. *)
Definition is_cancelled_selection (op : Op) : bool :=
  match op with
  | OpSelectionComplete (Some u) => negb (IsValid u)
  | OpSelectionComplete None => true
  | _ => false
  end.

(** The size Initialize asserts for the user configuration of a version. *)
Definition user_config_size_ok (version : ProfileSelectAppletVersion) (len : nat) : bool :=
  match version with
  | Version1 => Nat.eqb len sizeof_UiSettingsV1
  | Version2 | Version3 => Nat.eqb len sizeof_UiSettings
  | VersionUnknown _ => false
  end.

(** The parameters Execute hands to the frontend for a version and the
    configuration copied in for it. *)
Definition expected_parameters (version : ProfileSelectAppletVersion) (user_config : list Z)
  : option ProfileSelectParameters :=
  match version with
  | Version1 =>
    let c := parse_UiSettingsV1 user_config in
    Some (mkProfileSelectParameters (ui_mode c) (ui_invalid_uid_list c)
            (ui_display_options c) UserSelectionPurpose_General)
  | Version2 | Version3 =>
    let c := parse_UiSettings user_config in
    Some (mkProfileSelectParameters (ui_mode c) (ui_invalid_uid_list c)
            (ui_display_options c) (ui_purpose c))
  | VersionUnknown _ => None
  end.

End Applet.

(** A sample environment, to evaluate the applet on concrete inputs: the
    base class takes the first storage as the common arguments of a
    version 1 applet, UiSettingsV1 is 2 bytes and UiSettings 3 bytes. *)
Definition sample_uuid (b : Z) : UUID := Vector.const b 16.
Definition sample_is_valid (u : UUID) : bool := negb (Vector.hd u =? 0).
Definition sample_applet_initialize (q : list (list Z))
  : option (ProfileSelectAppletVersion * list (list Z)) :=
  match q with [] => None | _ :: q' => Some (Version1, q') end.
Definition sample_parse (l : list Z) : UiSettingsFields :=
  mkUiSettingsFields (hd 0 l) [] l 5.
Definition sample_applet : AppletState :=
  mkAppletState true (mkProfileSelectState 7 [9] [] 0) (VersionUnknown 0) [] []
    [[1]; [2; 3]] 0.

End ProfileSelectApplet.

Module Kernel.

Definition PageSize : Z := 4096.

Definition wrap64 (x : Z) : Z := x mod 2 ^ 64.

(** Common::AlignUp on an unsigned 64-bit value: subtract the remainder,
    add [size] back when the remainder was non-zero. *)
Definition AlignUp (value size : Z) : Z :=
  let mod_ := value mod size in
  let value' := wrap64 (value - mod_) in
  if mod_ =? 0 then value' else wrap64 (value' + size).

(** KMemoryManager::Pool and its [static_cast<u32>]. *)
Inductive Pool := Application | Applet | System | SystemNonSecure.

Definition pool_u32 (p : Pool) : Z :=
  match p with
  | Application => 0
  | Applet => 1
  | System => 2
  | SystemNonSecure => 3
  end.

(** Error results that can leave [Initialize]; the platform memory controller
    may fail with a result of its own, propagated verbatim by [R_TRY]. *)
Inductive KError :=
| ResultLimitReached
| ResultOutOfMemory
| ResultPlatform (raw : Z).

Inductive Result := ResultSuccess | ResultFailure (e : KError).

(** Calls observable from outside the object: the platform memory
    controller and the Resource Limit. *)
Inductive Event :=
| EvReserve (amount : Z) (succeeded : bool)
| EvRelease (amount : Z)
| EvOpen
| EvClose
| EvAllocateSecureMemory (size pool : Z)
| EvFreeSecureMemory (address size pool : Z).

(** The Resource Limit, restricted to the PhysicalMemoryMax resource. *)
Record KResourceLimit := mkResourceLimit {
  rl_current : Z;
  rl_limit : Z;
  rl_refcount : Z
}.

Record KDynamicPageManager := mkDynamicPageManager {
  dpm_address : Z;
  dpm_size : Z;
  dpm_page_size : Z
}.

Record KSecureSystemResource := mkSecureSystemResource {
  m_resource_size : Z;
  m_resource_pool : Pool;
  m_resource_address : Z;
  m_dynamic_page_manager : option KDynamicPageManager;
  (** reference-count storage bound to the page-table heap *)
  m_page_table_heap_ref_counts : option Z;
  m_memory_block_heap_initialized : bool;
  m_block_info_heap_initialized : bool;
  (** GetUsed() of the three slab managers *)
  m_memory_block_used : Z;
  m_block_info_used : Z;
  m_page_table_used : Z;
  m_managers_set : bool;
  m_is_initialized : bool
}.

Record World := mkWorld {
  w_ssr : KSecureSystemResource;
  w_rl : KResourceLimit;
  w_trace : list Event
}.

Inductive Outcome (A : Type) :=
| Returned (r : A) (w : World)
| Aborted (w : World).
Arguments Returned {A} r w.
Arguments Aborted {A} w.

Definition outcome_world {A} (o : Outcome A) : World :=
  match o with Returned _ w => w | Aborted w => w end.

Definition log (e : Event) (w : World) : World :=
  mkWorld (w_ssr w) (w_rl w) (w_trace w ++ [e]).

Definition set_ssr (s : KSecureSystemResource) (w : World) : World :=
  mkWorld s (w_rl w) (w_trace w).

Definition set_rl (l : KResourceLimit) (w : World) : World :=
  mkWorld (w_ssr w) l (w_trace w).

(** ** Resource Limit *)

(** Modelled from the spec: KResourceLimit (k_resource_limit.cpp is not
    under src/).  Reserving adds the amount to the committed total and fails,
    leaving it unchanged, when the new total would exceed the maximum;
    Release subtracts; Open and Close count external references. *)
Definition rl_reserve (amount : Z) (w : World) : World * bool :=
  let l := w_rl w in
  if rl_current l + amount <=? rl_limit l then
    (log (EvReserve amount true)
       (set_rl (mkResourceLimit (rl_current l + amount) (rl_limit l) (rl_refcount l)) w),
     true)
  else (log (EvReserve amount false) w, false).

Definition rl_release (amount : Z) (w : World) : World :=
  let l := w_rl w in
  log (EvRelease amount)
    (set_rl (mkResourceLimit (rl_current l - amount) (rl_limit l) (rl_refcount l)) w).

Definition rl_open (w : World) : World :=
  let l := w_rl w in
  log EvOpen (set_rl (mkResourceLimit (rl_current l) (rl_limit l) (rl_refcount l + 1)) w).

Definition rl_close (w : World) : World :=
  let l := w_rl w in
  log EvClose (set_rl (mkResourceLimit (rl_current l) (rl_limit l) (rl_refcount l - 1)) w).

(** Modelled from the spec (section 4.2): KScopedResourceReservation
    (k_scoped_resource_reservation.h is not under src/).  Construction
    reserves; the destructor gives the amount back unless the reservation
    failed or was committed. *)
Record KScopedResourceReservation := mkReservation {
  res_value : Z;
  res_succeeded : bool;
  res_committed : bool
}.

Definition reservation_create (amount : Z) (w : World)
  : World * KScopedResourceReservation :=
  let (w', ok) := rl_reserve amount w in (w', mkReservation amount ok false).

Definition Commit (r : KScopedResourceReservation) : KScopedResourceReservation :=
  mkReservation (res_value r) (res_succeeded r) true.

Definition reservation_destroy (r : KScopedResourceReservation) (w : World) : World :=
  if res_succeeded r && negb (res_committed r) then rl_release (res_value r) w else w.

(** Modelled from the spec: ASSERT (common/assert.h is not under src/).  A
    violated assertion is a fatal condition that terminates execution. *)
Definition ASSERT {A} (cond : bool) (w : World) (k : World -> Outcome A) : Outcome A :=
  if cond then k w else Aborted w.

(** ** Field updates of the secure system resource *)

Definition set_members (size : Z) (pool : Pool) (s : KSecureSystemResource) :=
  mkSecureSystemResource size pool (m_resource_address s) (m_dynamic_page_manager s)
    (m_page_table_heap_ref_counts s) (m_memory_block_heap_initialized s)
    (m_block_info_heap_initialized s) (m_memory_block_used s) (m_block_info_used s)
    (m_page_table_used s) (m_managers_set s) (m_is_initialized s).

Definition set_address (a : Z) (s : KSecureSystemResource) :=
  mkSecureSystemResource (m_resource_size s) (m_resource_pool s) a (m_dynamic_page_manager s)
    (m_page_table_heap_ref_counts s) (m_memory_block_heap_initialized s)
    (m_block_info_heap_initialized s) (m_memory_block_used s) (m_block_info_used s)
    (m_page_table_used s) (m_managers_set s) (m_is_initialized s).

(** m_dynamic_page_manager.Initialize(address, size, page_size) *)
Definition init_dynamic_page_manager (address size page_size : Z) (s : KSecureSystemResource) :=
  mkSecureSystemResource (m_resource_size s) (m_resource_pool s) (m_resource_address s)
    (Some (mkDynamicPageManager address size page_size))
    (m_page_table_heap_ref_counts s) (m_memory_block_heap_initialized s)
    (m_block_info_heap_initialized s) (m_memory_block_used s) (m_block_info_used s)
    (m_page_table_used s) (m_managers_set s) (m_is_initialized s).

(** The three slab heaps' Initialize; the page-table heap is bound to the
    reference-count storage. *)
Definition init_heaps (ref_counts : Z) (s : KSecureSystemResource) :=
  mkSecureSystemResource (m_resource_size s) (m_resource_pool s) (m_resource_address s)
    (m_dynamic_page_manager s) (Some ref_counts) true true
    (m_memory_block_used s) (m_block_info_used s)
    (m_page_table_used s) (m_managers_set s) (m_is_initialized s).

(** The three slab managers' Initialize: a fresh manager has no allocation. *)
Definition init_managers (s : KSecureSystemResource) :=
  mkSecureSystemResource (m_resource_size s) (m_resource_pool s) (m_resource_address s)
    (m_dynamic_page_manager s) (m_page_table_heap_ref_counts s)
    (m_memory_block_heap_initialized s) (m_block_info_heap_initialized s) 0 0 0
    (m_managers_set s) (m_is_initialized s).

Definition SetManagers (s : KSecureSystemResource) :=
  mkSecureSystemResource (m_resource_size s) (m_resource_pool s) (m_resource_address s)
    (m_dynamic_page_manager s) (m_page_table_heap_ref_counts s)
    (m_memory_block_heap_initialized s) (m_block_info_heap_initialized s)
    (m_memory_block_used s) (m_block_info_used s) (m_page_table_used s) true
    (m_is_initialized s).

Definition set_initialized (s : KSecureSystemResource) :=
  mkSecureSystemResource (m_resource_size s) (m_resource_pool s) (m_resource_address s)
    (m_dynamic_page_manager s) (m_page_table_heap_ref_counts s)
    (m_memory_block_heap_initialized s) (m_block_info_heap_initialized s)
    (m_memory_block_used s) (m_block_info_used s) (m_page_table_used s)
    (m_managers_set s) true.

(** Allocations and frees made through the published managers between
    Initialize and Finalize only change their used counts. *)
Definition set_used (memory_block block_info page_table : Z) (s : KSecureSystemResource) :=
  mkSecureSystemResource (m_resource_size s) (m_resource_pool s) (m_resource_address s)
    (m_dynamic_page_manager s) (m_page_table_heap_ref_counts s)
    (m_memory_block_heap_initialized s) (m_block_info_heap_initialized s)
    memory_block block_info page_table (m_managers_set s) (m_is_initialized s).

Definition is_failure (r : Result) : bool :=
  match r with ResultSuccess => false | ResultFailure _ => true end.

(** ** A sample platform, to evaluate the model on concrete inputs *)

(** The secure size is the requested size; every allocation succeeds at a
    fixed non-zero base. *)
Definition sample_secure_size (size pool : Z) : Z := size.
Definition sample_allocate (size pool : Z) : KError + Z := inr 2147483648.

(** Modelled from the spec: KPageTableSlabHeap::CalculateReferenceCountSize
    (not under src/), one 16-bit counter per page of the region. *)
Definition sample_rc_size (size : Z) : Z := (size / PageSize) * 2.
Definition sample_heap_paddr (address : Z) : Z := address.

Definition sample_ssr : KSecureSystemResource :=
  mkSecureSystemResource 0 Application 0 None None false false 0 0 0 false false.

Definition sample_world (current limit : Z) : World :=
  mkWorld sample_ssr (mkResourceLimit current limit 1) [].

(** ** KSecureSystemResource *)

Section Platform.

(** The platform layer (KSystemControl) and the page-table slab heap's
    reference-count sizing are collaborators of this file: every result
    below holds for any of them. *)
Variable KSystemControl_CalculateRequiredSecureMemorySize : Z -> Z -> Z.
Variable KSystemControl_AllocateSecureMemory : Z -> Z -> KError + Z.
Variable CalculateReferenceCountSize : Z -> Z.
Variable GetHeapPhysicalAddress : Z -> Z.

Definition CalculateRequiredSecureMemorySize (size : Z) (pool : Pool) : Z :=
  KSystemControl_CalculateRequiredSecureMemorySize size (pool_u32 pool).

(** Modelled from the spec: the member overload without arguments
    (k_system_resource.h is not under src/) computes
    CalculateRequiredSecureMemorySize(size, pool) from the stored fields. *)
Definition CalculateRequiredSecureMemorySize_member (s : KSecureSystemResource) : Z :=
  CalculateRequiredSecureMemorySize (m_resource_size s) (m_resource_pool s).

Definition FreeSecureMemory (address size pool : Z) (w : World) : World :=
  log (EvFreeSecureMemory address size pool) w.

Definition rc_size_of (size : Z) : Z :=
  AlignUp (CalculateReferenceCountSize size) PageSize.

(** Leaving the body of Initialize: the ON_RESULT_FAILURE guard (when it has
    been declared) runs first, then the reservation's destructor. *)
Definition scope_exit (r : Result) (guard_declared : bool)
    (memory_reservation : KScopedResourceReservation) (w : World) : Outcome Result :=
  let s := w_ssr w in
  let w := if guard_declared && is_failure r
           then FreeSecureMemory (m_resource_address s) (m_resource_size s)
                  (pool_u32 (m_resource_pool s)) w
           else w in
  Returned r (reservation_destroy memory_reservation w).

Definition Initialize (size : Z) (pool : Pool) (w : World) : Outcome Result :=
  (* Set members. *)
  let w := set_ssr (set_members size pool (w_ssr w)) w in
  (* Determine required size for our secure resource. *)
  let secure_size := CalculateRequiredSecureMemorySize_member (w_ssr w) in
  (* Reserve memory for our secure resource. *)
  let (w, memory_reservation) := reservation_create secure_size w in
  if negb (res_succeeded memory_reservation) then
    scope_exit (ResultFailure ResultLimitReached) false memory_reservation w
  else
  (* Allocate secure memory. *)
  let s := w_ssr w in
  let w := log (EvAllocateSecureMemory (m_resource_size s) (pool_u32 (m_resource_pool s))) w in
  match KSystemControl_AllocateSecureMemory (m_resource_size s) (pool_u32 (m_resource_pool s)) with
  | inl e => scope_exit (ResultFailure e) false memory_reservation w
  | inr address =>
    let w := set_ssr (set_address address (w_ssr w)) w in
    ASSERT (negb (m_resource_address (w_ssr w) =? 0)) w (fun w =>
    (* ON_RESULT_FAILURE is declared from here on. *)
    let s := w_ssr w in
    let rc_size := rc_size_of (m_resource_size s) in
    if negb (m_resource_size s >? rc_size) then
      scope_exit (ResultFailure ResultOutOfMemory) true memory_reservation w
    else
    let resource_paddr := GetHeapPhysicalAddress (m_resource_address s) in
    let s := init_dynamic_page_manager (wrap64 (m_resource_address s + rc_size))
               (wrap64 (m_resource_size s - rc_size)) PageSize s in
    let s := init_heaps resource_paddr s in
    let s := init_managers s in
    let s := SetManagers s in
    let w := set_ssr s w in
    let memory_reservation := Commit memory_reservation in
    let w := rl_open w in
    let w := set_ssr (set_initialized (w_ssr w)) w in
    scope_exit ResultSuccess true memory_reservation w)
  end.

Definition Finalize (w : World) : Outcome unit :=
  (* Check that we have no outstanding allocations. *)
  ASSERT (m_memory_block_used (w_ssr w) =? 0) w (fun w =>
  ASSERT (m_block_info_used (w_ssr w) =? 0) w (fun w =>
  ASSERT (m_page_table_used (w_ssr w) =? 0) w (fun w =>
  let s := w_ssr w in
  (* Free our secure memory. *)
  let w := FreeSecureMemory (m_resource_address s) (m_resource_size s)
             (pool_u32 (m_resource_pool s)) w in
  (* Release the memory reservation. *)
  let w := rl_release (CalculateRequiredSecureMemorySize_member (w_ssr w)) w in
  (* Close reference to our resource limit. *)
  Returned tt (rl_close w)))).

(** ** Properties of Initialize and Finalize *)

Ltac kcbn :=
  cbn -[CalculateRequiredSecureMemorySize rc_size_of wrap64 Z.add Z.sub Z.mul Z.leb Z.gtb Z.eqb].

Ltac run_init :=
  unfold Initialize, reservation_create, rl_reserve, CalculateRequiredSecureMemorySize_member,
    scope_exit, ASSERT, reservation_destroy, Commit; kcbn.

Ltac run_fin :=
  unfold Finalize, ASSERT, FreeSecureMemory, CalculateRequiredSecureMemorySize_member; kcbn.

(** Split a hypothesis [Hinit] about Initialize into the five exits of the
    function: limit reached, platform failure, zero address, region too
    small, success. *)
Ltac init_cases Hinit :=
  revert Hinit; run_init;
  destruct (_ <=? _) eqn:Hres; kcbn;
  [ destruct (KSystemControl_AllocateSecureMemory _ _) as [e|a] eqn:Halloc; kcbn;
    [ | destruct (a =? 0) eqn:Hzero; kcbn;
        [ | destruct (_ >? _) eqn:Hgt; kcbn ] ]
  | ]; intro Hinit.

Lemma rc_size_of_nonneg (size : Z) : 0 <= rc_size_of size.
Proof.
  unfold rc_size_of, AlignUp, wrap64.
  destruct (_ =? 0); apply Z.mod_pos_bound; lia.
Qed.

(** C1: with enough headroom, a platform allocation that succeeds and a
    region larger than its reference-count table, Initialize succeeds and
    commits exactly CalculateRequiredSecureMemorySize(size, pool); Finalize
    right after it gives the committed amount back to its value before
    Initialize. *)
Theorem initialize_then_finalize_restores_committed
    (size : Z) (pool : Pool) (w : World) (address : Z) :
  rl_current (w_rl w) + CalculateRequiredSecureMemorySize size pool <= rl_limit (w_rl w) ->
  KSystemControl_AllocateSecureMemory size (pool_u32 pool) = inr address ->
  address <> 0 ->
  rc_size_of size < size ->
  exists w1 w2,
    Initialize size pool w = Returned ResultSuccess w1 /\
    rl_current (w_rl w1) = rl_current (w_rl w) + CalculateRequiredSecureMemorySize size pool /\
    Finalize w1 = Returned tt w2 /\
    rl_current (w_rl w2) = rl_current (w_rl w).
Proof.
  intros Hh Ha Hz Hrc.
  run_init.
  rewrite (proj2 (Z.leb_le _ _) Hh); kcbn.
  rewrite Ha, (proj2 (Z.eqb_neq _ _) Hz); kcbn.
  rewrite Z.gtb_ltb, (proj2 (Z.ltb_lt _ _) Hrc); kcbn.
  eexists; eexists; split; [reflexivity|].
  split; [reflexivity|].
  run_fin. split; [reflexivity|]. kcbn. lia.
Qed.

(** C2 (amended): when the page-aligned reference-count table is at least
    as large as the region, Initialize never succeeds, and whenever it
    returns the committed amount and the initialized flag are as before the
    call.  It fails with ResultOutOfMemory once the reservation and the
    platform allocation (at a non-zero address) have succeeded; before that
    it fails with ResultLimitReached, or with the platform's error. *)
Theorem initialize_region_too_small_fails (size : Z) (pool : Pool) (w : World) :
  size <= rc_size_of size ->
  (forall r w', Initialize size pool w = Returned r w' ->
     r <> ResultSuccess /\
     rl_current (w_rl w') = rl_current (w_rl w) /\
     m_is_initialized (w_ssr w') = m_is_initialized (w_ssr w)) /\
  (rl_limit (w_rl w) < rl_current (w_rl w) + CalculateRequiredSecureMemorySize size pool ->
     exists w', Initialize size pool w = Returned (ResultFailure ResultLimitReached) w') /\
  (forall e, rl_current (w_rl w) + CalculateRequiredSecureMemorySize size pool <= rl_limit (w_rl w) ->
     KSystemControl_AllocateSecureMemory size (pool_u32 pool) = inl e ->
     exists w', Initialize size pool w = Returned (ResultFailure e) w') /\
  (forall address,
     rl_current (w_rl w) + CalculateRequiredSecureMemorySize size pool <= rl_limit (w_rl w) ->
     KSystemControl_AllocateSecureMemory size (pool_u32 pool) = inr address ->
     address <> 0 ->
     exists w', Initialize size pool w = Returned (ResultFailure ResultOutOfMemory) w').
Proof.
  intro Hsmall.
  assert (Hnot : (size >? rc_size_of size) = false)
    by (rewrite Z.gtb_ltb; apply Z.ltb_ge; lia).
  split; [|split; [|split]].
  - intros r w' Hinit. init_cases Hinit; try discriminate;
      injection Hinit as <- <-; kcbn; repeat split; try discriminate; try lia.

  - intros Hl. run_init.
    rewrite (proj2 (Z.leb_gt _ _) Hl); kcbn. eexists; reflexivity.
  - intros e Hh Ha. run_init.
    rewrite (proj2 (Z.leb_le _ _) Hh); kcbn. rewrite Ha; kcbn. eexists; reflexivity.
  - intros address Hh Ha Hz. run_init.
    rewrite (proj2 (Z.leb_le _ _) Hh); kcbn.
    rewrite Ha, (proj2 (Z.eqb_neq _ _) Hz); kcbn. rewrite Hnot; kcbn.
    eexists; reflexivity.
Qed.

(** C3: when the reservation of secure_size units would exceed the maximum,
    Initialize fails with ResultLimitReached right after the reservation
    attempt: no secure memory is requested, the Resource Limit (committed
    amount and reference count) is untouched and the object is not marked
    initialized. *)
Theorem initialize_limit_reached_no_effect (size : Z) (pool : Pool) (w : World) :
  rl_limit (w_rl w) < rl_current (w_rl w) + CalculateRequiredSecureMemorySize size pool ->
  exists w',
    Initialize size pool w = Returned (ResultFailure ResultLimitReached) w' /\
    w_trace w' = w_trace w ++ [EvReserve (CalculateRequiredSecureMemorySize size pool) false] /\
    w_rl w' = w_rl w /\
    m_is_initialized (w_ssr w') = m_is_initialized (w_ssr w).
Proof.
  intros Hl. run_init.
  rewrite (proj2 (Z.leb_gt _ _) Hl); kcbn.
  eexists; repeat split.
Qed.

(** C4: once the reservation and the platform allocation have succeeded,
    every failing exit of Initialize calls FreeSecureMemory with the
    allocation's address, size and pool before returning (and then rolls the
    reservation back); the successful exit does not, and the matching
    FreeSecureMemory is the first call Finalize makes. *)
Theorem initialize_failure_frees_secure_memory
    (size : Z) (pool : Pool) (w : World) (address : Z) (r : Result) (w' : World) :
  rl_current (w_rl w) + CalculateRequiredSecureMemorySize size pool <= rl_limit (w_rl w) ->
  KSystemControl_AllocateSecureMemory size (pool_u32 pool) = inr address ->
  Initialize size pool w = Returned r w' ->
  (r <> ResultSuccess ->
     w_trace w' = w_trace w ++
       [EvReserve (CalculateRequiredSecureMemorySize size pool) true;
        EvAllocateSecureMemory size (pool_u32 pool);
        EvFreeSecureMemory address size (pool_u32 pool);
        EvRelease (CalculateRequiredSecureMemorySize size pool)]) /\
  (r = ResultSuccess ->
     w_trace w' = w_trace w ++
       [EvReserve (CalculateRequiredSecureMemorySize size pool) true;
        EvAllocateSecureMemory size (pool_u32 pool);
        EvOpen] /\
     forall w2, Finalize w' = Returned tt w2 ->
       exists rest,
         w_trace w2 = w_trace w' ++ EvFreeSecureMemory address size (pool_u32 pool) :: rest).
Proof.
  intros Hh Ha Hinit.
  revert Hinit; run_init.
  rewrite (proj2 (Z.leb_le _ _) Hh); kcbn.
  rewrite Ha; kcbn.
  destruct (address =? 0); kcbn; [discriminate|].
  destruct (_ >? _); kcbn; intro Hinit; injection Hinit as <- <-; kcbn.
  - split; [intro Hne; contradiction Hne; reflexivity|]. intros _.
    split; [rewrite <- !app_assoc; reflexivity|].
    intros w2 Hfin. revert Hfin; run_fin. intro Hfin. injection Hfin as <-. kcbn.
    eexists. rewrite <- !app_assoc. reflexivity.
  - split; [|intro; discriminate]. intros _.
    rewrite <- !app_assoc; reflexivity.
Qed.

(** C5: Finalize on an object that Initialize set up, after any allocations
    through its managers, aborts unless all three managers report zero used
    objects; otherwise it frees the secure memory with the address, size and
    pool of the allocation, releases CalculateRequiredSecureMemorySize(size,
    pool) units and closes the Resource Limit, in that order and nothing
    else. *)
Theorem finalize_checks_then_frees_releases_closes
    (size : Z) (pool : Pool) (w w1 : World) (memory_block block_info page_table : Z) :
  Initialize size pool w = Returned ResultSuccess w1 ->
  let w1' := set_ssr (set_used memory_block block_info page_table (w_ssr w1)) w1 in
  ((memory_block <> 0 \/ block_info <> 0 \/ page_table <> 0) ->
     Finalize w1' = Aborted w1') /\
  (memory_block = 0 -> block_info = 0 -> page_table = 0 ->
     exists w2,
       Finalize w1' = Returned tt w2 /\
       w_trace w2 = w_trace w1 ++
         [EvFreeSecureMemory (m_resource_address (w_ssr w1)) size (pool_u32 pool);
          EvRelease (CalculateRequiredSecureMemorySize size pool);
          EvClose] /\
       rl_current (w_rl w2) = rl_current (w_rl w1) - CalculateRequiredSecureMemorySize size pool /\
       rl_refcount (w_rl w2) = rl_refcount (w_rl w1) - 1).
Proof.
  intros Hinit w1'. subst w1'.
  init_cases Hinit; try discriminate.
  injection Hinit as <-. split.
  - intros Hne. run_fin.
    destruct (Z.eqb_spec memory_block 0); kcbn; [|reflexivity].
    destruct (Z.eqb_spec block_info 0); kcbn; [|reflexivity].
    destruct (Z.eqb_spec page_table 0); kcbn; [|reflexivity].
    exfalso; lia.
  - intros -> -> ->. run_fin.
    eexists; split; [reflexivity|]. kcbn.
    split; [rewrite <- !app_assoc; reflexivity|]. split; reflexivity.
Qed.

(** C6: the secure size Finalize recomputes from the stored fields, whatever
    allocations happened in between, is the amount Initialize reserved and
    committed: CalculateRequiredSecureMemorySize(size, pool). *)
Theorem secure_size_same_at_initialize_and_finalize
    (size : Z) (pool : Pool) (w w1 : World) :
  Initialize size pool w = Returned ResultSuccess w1 ->
  hd_error (skipn (length (w_trace w)) (w_trace w1)) =
    Some (EvReserve (CalculateRequiredSecureMemorySize size pool) true) /\
  forall memory_block block_info page_table,
    CalculateRequiredSecureMemorySize_member
      (set_used memory_block block_info page_table (w_ssr w1)) =
    CalculateRequiredSecureMemorySize size pool.
Proof.
  intros Hinit. init_cases Hinit; try discriminate.
  injection Hinit as <-. kcbn. split; [|reflexivity].
  rewrite <- !app_assoc, skipn_app, skipn_all, Nat.sub_diag. reflexivity.
Qed.

(** C7: after a successful Initialize the dynamic page manager covers
    [address + rc_size, address + size) with page granularity, where rc_size
    is the page-aligned reference-count table size computed from the raw
    size, which is smaller than size. *)
Theorem initialize_dynamic_page_manager_range
    (size : Z) (pool : Pool) (w w1 : World) :
  size < 2 ^ 64 ->
  Initialize size pool w = Returned ResultSuccess w1 ->
  rc_size_of size < size /\
  m_dynamic_page_manager (w_ssr w1) =
    Some (mkDynamicPageManager (wrap64 (m_resource_address (w_ssr w1) + rc_size_of size))
            (size - rc_size_of size) PageSize).
Proof.
  intros Hsz Hinit. init_cases Hinit; try discriminate.
  injection Hinit as <-. kcbn.
  rewrite Z.gtb_ltb in Hgt. apply Z.ltb_lt in Hgt.
  pose proof (rc_size_of_nonneg size).
  split; [exact Hgt|].
  unfold wrap64 at 2. rewrite Z.mod_small by lia. reflexivity.
Qed.

(** C8: a zero base address from a successful platform allocation is a
    failed assertion that terminates Initialize; every exit that returns
    after the allocation has stored the non-zero address. *)
Theorem initialize_zero_address_is_fatal
    (size : Z) (pool : Pool) (w : World) (address : Z) :
  rl_current (w_rl w) + CalculateRequiredSecureMemorySize size pool <= rl_limit (w_rl w) ->
  KSystemControl_AllocateSecureMemory size (pool_u32 pool) = inr address ->
  (address = 0 -> exists w', Initialize size pool w = Aborted w') /\
  (forall r w', Initialize size pool w = Returned r w' ->
     m_resource_address (w_ssr w') = address /\ address <> 0).
Proof.
  intros Hh Ha. run_init.
  rewrite (proj2 (Z.leb_le _ _) Hh); kcbn. rewrite Ha; kcbn.
  destruct (Z.eqb_spec address 0); kcbn.
  - split; [intros _; eexists; reflexivity | discriminate].
  - split; [intro; contradiction|].
    destruct (_ >? _); kcbn; intros r w' Hinit; injection Hinit as <- <-; kcbn; auto.
Qed.

(** C9: a failing Initialize leaves the initialized flag as it was, though
    it has already stored size and pool; a successful one sets it. *)
Theorem initialize_flag_only_on_success
    (size : Z) (pool : Pool) (w : World) (r : Result) (w' : World) :
  Initialize size pool w = Returned r w' ->
  (r = ResultSuccess -> m_is_initialized (w_ssr w') = true) /\
  (r <> ResultSuccess ->
     m_is_initialized (w_ssr w') = m_is_initialized (w_ssr w) /\
     m_resource_size (w_ssr w') = size /\ m_resource_pool (w_ssr w') = pool).
Proof.
  intros Hinit. init_cases Hinit; try discriminate;
    injection Hinit as <- <-; kcbn; split; intro; try discriminate; auto.
  contradiction.
Qed.

(** ** Further properties of Initialize and Finalize *)

Lemma page_divides_wrap64 (x : Z) : (PageSize | x) -> (PageSize | wrap64 x).
Proof.
  intro H. unfold wrap64. rewrite Z.mod_eq by lia.
  apply Z.divide_sub_r; [exact H|].
  apply Z.divide_mul_l. exists (2 ^ 52). reflexivity.
Qed.

Lemma AlignUp_page_divides (v : Z) : (PageSize | AlignUp v PageSize).
Proof.
  unfold AlignUp; cbv zeta.
  assert (H0 : (PageSize | v - v mod PageSize))
    by (exists (v / PageSize); rewrite Z.mod_eq by (unfold PageSize; lia); ring).
  destruct (_ =? 0); apply page_divides_wrap64; [exact H0|].
  apply Z.divide_add_r; [apply page_divides_wrap64; exact H0 | apply Z.divide_refl].
Qed.

(** The reference-count table size Initialize computes is a multiple of the
    page size, whatever the slab heap's sizing returns. *)
Theorem rc_size_of_page_aligned (size : Z) : rc_size_of size mod PageSize = 0.
Proof.
  apply Z.mod_divide; [unfold PageSize; lia | apply AlignUp_page_divides].
Qed.

(** When the sizing fits in size_t without overflowing the alignment, the
    table size is that sizing rounded up to the next page boundary: at
    least it and less than one page more. *)
Theorem rc_size_of_rounds_up (size : Z) :
  0 <= CalculateReferenceCountSize size <= 2 ^ 64 - PageSize ->
  CalculateReferenceCountSize size <= rc_size_of size < CalculateReferenceCountSize size + PageSize.
Proof.
  unfold rc_size_of, AlignUp, wrap64, PageSize; cbv zeta.
  set (v := CalculateReferenceCountSize size). intro Hv.
  pose proof (Z.mod_pos_bound v 4096 ltac:(lia)).
  pose proof (Z.mod_le v 4096 ltac:(lia) ltac:(lia)).
  destruct (Z.eqb_spec (v mod 4096) 0).
  - rewrite (Z.mod_small (v - v mod 4096)) by lia. lia.
  - rewrite (Z.mod_small (v - v mod 4096)) by lia.
    rewrite (Z.mod_small (v - v mod 4096 + 4096)) by lia. lia.
Qed.

(** Every return of Initialize accounts exactly: a success commits
    CalculateRequiredSecureMemorySize(size, pool) units and opens one
    reference on the Resource Limit; a failure leaves the committed amount,
    the maximum and the reference count as they were. *)
Theorem initialize_accounting (size : Z) (pool : Pool) (w : World) (r : Result) (w' : World) :
  Initialize size pool w = Returned r w' ->
  rl_current (w_rl w') = rl_current (w_rl w) +
    (if is_failure r then 0 else CalculateRequiredSecureMemorySize size pool) /\
  rl_refcount (w_rl w') = rl_refcount (w_rl w) + (if is_failure r then 0 else 1) /\
  rl_limit (w_rl w') = rl_limit (w_rl w).
Proof.
  intros Hinit. init_cases Hinit; try discriminate;
    injection Hinit as <- <-; kcbn; repeat split; lia.
Qed.

(** A failing platform allocation is returned to the caller as it is; the
    reservation is given back and FreeSecureMemory is not called. *)
Theorem initialize_platform_error_propagated (size : Z) (pool : Pool) (w : World) (e : KError) :
  rl_current (w_rl w) + CalculateRequiredSecureMemorySize size pool <= rl_limit (w_rl w) ->
  KSystemControl_AllocateSecureMemory size (pool_u32 pool) = inl e ->
  exists w',
    Initialize size pool w = Returned (ResultFailure e) w' /\
    w_trace w' = w_trace w ++
      [EvReserve (CalculateRequiredSecureMemorySize size pool) true;
       EvAllocateSecureMemory size (pool_u32 pool);
       EvRelease (CalculateRequiredSecureMemorySize size pool)] /\
    w_rl w' = w_rl w.
Proof.
  intros Hh Ha. run_init.
  rewrite (proj2 (Z.leb_le _ _) Hh); kcbn. rewrite Ha; kcbn.
  eexists; split; [reflexivity|]. kcbn.
  split; [rewrite <- !app_assoc; reflexivity|].
  destruct (w_rl w); kcbn; f_equal; lia.
Qed.

(** After a successful Initialize the page-table heap is bound to the
    reference-count storage at the physical address of the region, both
    other heaps are initialized, and the three managers are published with
    no allocation outstanding. *)
Theorem initialize_success_layout (size : Z) (pool : Pool) (w w1 : World) :
  Initialize size pool w = Returned ResultSuccess w1 ->
  m_page_table_heap_ref_counts (w_ssr w1) =
    Some (GetHeapPhysicalAddress (m_resource_address (w_ssr w1))) /\
  m_memory_block_heap_initialized (w_ssr w1) = true /\
  m_block_info_heap_initialized (w_ssr w1) = true /\
  m_managers_set (w_ssr w1) = true /\
  m_memory_block_used (w_ssr w1) = 0 /\ m_block_info_used (w_ssr w1) = 0 /\
  m_page_table_used (w_ssr w1) = 0.
Proof.
  intros Hinit. init_cases Hinit; try discriminate.
  injection Hinit as <-. kcbn. repeat split.
Qed.

(** With a page-aligned size and a page-aligned base from the platform, the
    dynamic page manager's range is page-aligned and not empty. *)
Theorem initialize_dynamic_page_manager_page_aligned
    (size : Z) (pool : Pool) (w w1 : World) :
  size < 2 ^ 64 ->
  size mod PageSize = 0 ->
  (forall address, KSystemControl_AllocateSecureMemory size (pool_u32 pool) = inr address ->
     address mod PageSize = 0) ->
  Initialize size pool w = Returned ResultSuccess w1 ->
  exists dpm,
    m_dynamic_page_manager (w_ssr w1) = Some dpm /\
    dpm_address dpm mod PageSize = 0 /\ dpm_size dpm mod PageSize = 0 /\ 0 < dpm_size dpm.
Proof.
  intros Hsz Hal Haddr Hinit.
  init_cases Hinit; try discriminate.
  injection Hinit as <-. kcbn.
  rewrite Z.gtb_ltb in Hgt. apply Z.ltb_lt in Hgt.
  pose proof (rc_size_of_nonneg size) as Hnn.
  pose proof (AlignUp_page_divides (CalculateReferenceCountSize size)) as Hrc.
  fold (rc_size_of size) in Hrc.
  specialize (Haddr a eq_refl).
  apply Z.mod_divide in Haddr; [|unfold PageSize; lia].
  apply Z.mod_divide in Hal; [|unfold PageSize; lia].
  eexists; split; [reflexivity|]. cbn.
  replace (wrap64 (size - rc_size_of size)) with (size - rc_size_of size)
    by (unfold wrap64; rewrite Z.mod_small; lia).
  split; [|split; [|lia]]; apply Z.mod_divide; try (unfold PageSize; lia).
  - apply page_divides_wrap64, Z.divide_add_r; assumption.
  - apply Z.divide_sub_r; assumption.
Qed.

(** Finalize changes none of the object's fields (the initialized flag
    included), so a second Finalize passes its checks again and frees the
    secure memory, releases the secure size and closes the Resource Limit a
    second time. *)
Theorem finalize_twice_releases_twice (w w2 : World) :
  Finalize w = Returned tt w2 ->
  w_ssr w2 = w_ssr w /\
  exists w3,
    Finalize w2 = Returned tt w3 /\
    rl_current (w_rl w3) = rl_current (w_rl w) - 2 * CalculateRequiredSecureMemorySize_member (w_ssr w) /\
    rl_refcount (w_rl w3) = rl_refcount (w_rl w) - 2 /\
    w_trace w3 = w_trace w ++
      [EvFreeSecureMemory (m_resource_address (w_ssr w)) (m_resource_size (w_ssr w))
         (pool_u32 (m_resource_pool (w_ssr w)));
       EvRelease (CalculateRequiredSecureMemorySize_member (w_ssr w)); EvClose;
       EvFreeSecureMemory (m_resource_address (w_ssr w)) (m_resource_size (w_ssr w))
         (pool_u32 (m_resource_pool (w_ssr w)));
       EvRelease (CalculateRequiredSecureMemorySize_member (w_ssr w)); EvClose].
Proof.
  unfold Finalize, ASSERT, FreeSecureMemory.
  destruct (m_memory_block_used (w_ssr w) =? 0) eqn:E1; [|discriminate].
  destruct (m_block_info_used (w_ssr w) =? 0) eqn:E2; [|discriminate].
  destruct (m_page_table_used (w_ssr w) =? 0) eqn:E3; [|discriminate].
  intro Hfin. injection Hfin as <-. kcbn.
  split; [reflexivity|].
  rewrite E1, E2, E3. kcbn.
  eexists; split; [reflexivity|]. unfold CalculateRequiredSecureMemorySize_member. kcbn.
  split; [lia|]. split; [lia|].
  rewrite <- !app_assoc. reflexivity.
Qed.

End Platform.

(** ** The claims evaluated on the sample platform *)

Local Abbreviation SInit := (Initialize sample_secure_size sample_allocate sample_rc_size sample_heap_paddr).
Local Abbreviation SFin := (Finalize sample_secure_size).
Local Abbreviation SInit_ok w := (SInit 8192 Application w = Returned ResultSuccess (outcome_world (SInit 8192 Application w))).

Ltac ev := vm_compute; first [reflexivity | discriminate | congruence].

Lemma initialize_then_finalize_restores_committed_witness :
  rl_current (w_rl (sample_world 0 65536))
    + CalculateRequiredSecureMemorySize sample_secure_size 8192 Application
    <= rl_limit (w_rl (sample_world 0 65536)) /\
  sample_allocate 8192 (pool_u32 Application) = inr 2147483648 /\
  2147483648 <> 0 /\
  rc_size_of sample_rc_size 8192 < 8192 /\
  exists w1 w2,
    SInit 8192 Application (sample_world 0 65536) = Returned ResultSuccess w1 /\
    rl_current (w_rl w1) = 8192 /\
    SFin w1 = Returned tt w2 /\ rl_current (w_rl w2) = 0.
Proof.
  split; [ev|]. split; [ev|]. split; [ev|]. split; [ev|].
  destruct (initialize_then_finalize_restores_committed sample_secure_size sample_allocate
              sample_rc_size sample_heap_paddr 8192 Application (sample_world 0 65536) 2147483648)
    as (w1 & w2 & H1 & H2 & H3 & H4); try ev.
  exists w1, w2. repeat split; auto.
Defined.

Lemma initialize_region_too_small_fails_witness :
  4096 <= rc_size_of sample_rc_size 4096 /\
  exists w', SInit 4096 Application (sample_world 0 65536)
               = Returned (ResultFailure ResultOutOfMemory) w'.
Proof.
  split; [ev|].
  apply (proj2 (proj2 (proj2 (initialize_region_too_small_fails sample_secure_size
           sample_allocate sample_rc_size sample_heap_paddr 4096 Application
           (sample_world 0 65536) ltac:(ev)))) 2147483648); ev.
Defined.

(** C2 as stated fails: with the limit exhausted, Initialize of a region
    too small for its reference-count table reports ResultLimitReached. *)
Lemma initialize_region_too_small_counterexample :
  ~ (forall size pool w, size <= rc_size_of sample_rc_size size ->
       exists w', SInit size pool w = Returned (ResultFailure ResultOutOfMemory) w' /\
                  rl_current (w_rl w') = rl_current (w_rl w)).
Proof.
  intro H.
  destruct (H 4096 Application (sample_world 0 0)) as (w' & Heq & _); [ev|].
  vm_compute in Heq. discriminate.
Qed.

Lemma initialize_limit_reached_no_effect_witness :
  rl_limit (w_rl (sample_world 0 4096))
    < rl_current (w_rl (sample_world 0 4096))
      + CalculateRequiredSecureMemorySize sample_secure_size 8192 Application /\
  exists w',
    SInit 8192 Application (sample_world 0 4096) = Returned (ResultFailure ResultLimitReached) w' /\
    w_trace w' = [EvReserve 8192 false].
Proof.
  split; [ev|].
  destruct (initialize_limit_reached_no_effect sample_secure_size sample_allocate sample_rc_size
              sample_heap_paddr 8192 Application (sample_world 0 4096)) as (w' & H1 & H2 & _); [ev|].
  exists w'. split; [exact H1 | exact H2].
Defined.

Lemma initialize_failure_frees_secure_memory_witness :
  rl_current (w_rl (sample_world 0 65536))
    + CalculateRequiredSecureMemorySize sample_secure_size 4096 Application
    <= rl_limit (w_rl (sample_world 0 65536)) /\
  sample_allocate 4096 (pool_u32 Application) = inr 2147483648 /\
  SInit 4096 Application (sample_world 0 65536)
    = Returned (ResultFailure ResultOutOfMemory)
        (outcome_world (SInit 4096 Application (sample_world 0 65536))) /\
  w_trace (outcome_world (SInit 4096 Application (sample_world 0 65536))) =
    [EvReserve 4096 true; EvAllocateSecureMemory 4096 0;
     EvFreeSecureMemory 2147483648 4096 0; EvRelease 4096].
Proof.
  split; [ev|]. split; [ev|]. split; [ev|].
  apply (proj1 (initialize_failure_frees_secure_memory sample_secure_size sample_allocate
           sample_rc_size sample_heap_paddr 4096 Application (sample_world 0 65536) 2147483648
           (ResultFailure ResultOutOfMemory)
           (outcome_world (SInit 4096 Application (sample_world 0 65536))) ltac:(ev) ltac:(ev)
           ltac:(ev))).
  discriminate.
Defined.

Lemma finalize_checks_then_frees_releases_closes_witness :
  SInit_ok (sample_world 0 65536) /\
  SFin (set_ssr (set_used 1 0 0 (w_ssr (outcome_world (SInit 8192 Application (sample_world 0 65536)))))
          (outcome_world (SInit 8192 Application (sample_world 0 65536))))
    = Aborted (set_ssr (set_used 1 0 0 (w_ssr (outcome_world (SInit 8192 Application (sample_world 0 65536)))))
          (outcome_world (SInit 8192 Application (sample_world 0 65536)))).
Proof.
  split; [ev|].
  apply (proj1 (finalize_checks_then_frees_releases_closes sample_secure_size sample_allocate
           sample_rc_size sample_heap_paddr 8192 Application (sample_world 0 65536)
           (outcome_world (SInit 8192 Application (sample_world 0 65536))) 1 0 0 ltac:(ev))).
  left; discriminate.
Defined.

Lemma secure_size_same_at_initialize_and_finalize_witness :
  SInit_ok (sample_world 0 65536) /\
  CalculateRequiredSecureMemorySize_member sample_secure_size
    (set_used 3 2 1 (w_ssr (outcome_world (SInit 8192 Application (sample_world 0 65536))))) = 8192.
Proof.
  split; [ev|].
  apply (proj2 (secure_size_same_at_initialize_and_finalize sample_secure_size sample_allocate
           sample_rc_size sample_heap_paddr 8192 Application (sample_world 0 65536)
           (outcome_world (SInit 8192 Application (sample_world 0 65536))) ltac:(ev))).
Defined.

Lemma initialize_dynamic_page_manager_range_witness :
  8192 < 2 ^ 64 /\ SInit_ok (sample_world 0 65536) /\
  m_dynamic_page_manager (w_ssr (outcome_world (SInit 8192 Application (sample_world 0 65536))))
    = Some (mkDynamicPageManager (2147483648 + 4096) 4096 PageSize).
Proof.
  split; [ev|]. split; [ev|].
  apply (proj2 (initialize_dynamic_page_manager_range sample_secure_size sample_allocate
           sample_rc_size sample_heap_paddr 8192 Application (sample_world 0 65536)
           (outcome_world (SInit 8192 Application (sample_world 0 65536))) ltac:(ev) ltac:(ev))).
Defined.

Lemma initialize_zero_address_is_fatal_witness :
  rl_current (w_rl (sample_world 0 65536))
    + CalculateRequiredSecureMemorySize sample_secure_size 8192 Application
    <= rl_limit (w_rl (sample_world 0 65536)) /\
  (fun _ _ => inr 0) 8192 (pool_u32 Application) = (inr 0 : KError + Z) /\
  exists w', Initialize sample_secure_size (fun _ _ => inr 0) sample_rc_size sample_heap_paddr
               8192 Application (sample_world 0 65536) = Aborted w'.
Proof.
  split; [ev|]. split; [ev|].
  apply (proj1 (initialize_zero_address_is_fatal sample_secure_size (fun _ _ => inr 0)
           sample_rc_size sample_heap_paddr 8192 Application (sample_world 0 65536) 0
           ltac:(ev) ltac:(ev))).
  reflexivity.
Defined.

Lemma initialize_flag_only_on_success_witness :
  SInit 4096 Application (sample_world 0 65536)
    = Returned (ResultFailure ResultOutOfMemory)
        (outcome_world (SInit 4096 Application (sample_world 0 65536))) /\
  m_is_initialized (w_ssr (outcome_world (SInit 4096 Application (sample_world 0 65536)))) = false.
Proof.
  split; [ev|].
  apply (proj2 (initialize_flag_only_on_success sample_secure_size sample_allocate
           sample_rc_size sample_heap_paddr 4096 Application (sample_world 0 65536)
           (ResultFailure ResultOutOfMemory)
           (outcome_world (SInit 4096 Application (sample_world 0 65536))) ltac:(ev))).
  discriminate.
Defined.

Lemma rc_size_of_rounds_up_witness :
  (0 <= sample_rc_size 12288 <= 2 ^ 64 - PageSize) /\
  sample_rc_size 12288 <= rc_size_of sample_rc_size 12288 < sample_rc_size 12288 + PageSize.
Proof.
  split; [vm_compute; split; discriminate|].
  apply (rc_size_of_rounds_up sample_rc_size 12288).
  vm_compute; split; discriminate.
Defined.

Lemma initialize_accounting_witness :
  SInit_ok (sample_world 0 65536) /\
  rl_current (w_rl (outcome_world (SInit 8192 Application (sample_world 0 65536)))) = 0 + 8192 /\
  rl_refcount (w_rl (outcome_world (SInit 8192 Application (sample_world 0 65536)))) = 1 + 1.
Proof.
  split; [ev|].
  destruct (initialize_accounting sample_secure_size sample_allocate sample_rc_size
              sample_heap_paddr 8192 Application (sample_world 0 65536) ResultSuccess
              (outcome_world (SInit 8192 Application (sample_world 0 65536))) ltac:(ev))
    as (H1 & H2 & _).
  split; [rewrite H1 | rewrite H2]; reflexivity.
Defined.

Lemma initialize_platform_error_propagated_witness :
  rl_current (w_rl (sample_world 0 65536))
    + CalculateRequiredSecureMemorySize sample_secure_size 8192 Application
    <= rl_limit (w_rl (sample_world 0 65536)) /\
  (fun _ _ : Z => inl (ResultPlatform 7) : KError + Z) 8192 (pool_u32 Application)
    = inl (ResultPlatform 7) /\
  exists w',
    Initialize sample_secure_size (fun _ _ => inl (ResultPlatform 7)) sample_rc_size
      sample_heap_paddr 8192 Application (sample_world 0 65536)
      = Returned (ResultFailure (ResultPlatform 7)) w' /\
    w_rl w' = w_rl (sample_world 0 65536).
Proof.
  split; [ev|]. split; [reflexivity|].
  destruct (initialize_platform_error_propagated sample_secure_size
              (fun _ _ => inl (ResultPlatform 7)) sample_rc_size sample_heap_paddr
              8192 Application (sample_world 0 65536) (ResultPlatform 7) ltac:(ev)
              eq_refl) as (w' & H1 & _ & H3).
  exists w'. split; [exact H1 | exact H3].
Defined.

Lemma initialize_success_layout_witness :
  SInit_ok (sample_world 0 65536) /\
  m_page_table_heap_ref_counts (w_ssr (outcome_world (SInit 8192 Application (sample_world 0 65536))))
    = Some (sample_heap_paddr (m_resource_address
        (w_ssr (outcome_world (SInit 8192 Application (sample_world 0 65536)))))).
Proof.
  split; [ev|].
  apply (proj1 (initialize_success_layout sample_secure_size sample_allocate sample_rc_size
           sample_heap_paddr 8192 Application (sample_world 0 65536)
           (outcome_world (SInit 8192 Application (sample_world 0 65536))) ltac:(ev))).
Defined.

Lemma initialize_dynamic_page_manager_page_aligned_witness :
  8192 < 2 ^ 64 /\ 8192 mod PageSize = 0 /\
  (forall address, sample_allocate 8192 (pool_u32 Application) = inr address ->
     address mod PageSize = 0) /\
  SInit_ok (sample_world 0 65536) /\
  exists dpm,
    m_dynamic_page_manager (w_ssr (outcome_world (SInit 8192 Application (sample_world 0 65536))))
      = Some dpm /\
    dpm_address dpm mod PageSize = 0 /\ dpm_size dpm mod PageSize = 0 /\ 0 < dpm_size dpm.
Proof.
  assert (Ha : forall address, sample_allocate 8192 (pool_u32 Application) = inr address ->
                 address mod PageSize = 0)
    by (intros address H; injection H as <-; reflexivity).
  split; [reflexivity|]. split; [reflexivity|]. split; [exact Ha|]. split; [ev|].
  apply (initialize_dynamic_page_manager_page_aligned sample_secure_size sample_allocate
           sample_rc_size sample_heap_paddr 8192 Application (sample_world 0 65536)
           (outcome_world (SInit 8192 Application (sample_world 0 65536)))
           eq_refl eq_refl Ha ltac:(ev)).
Defined.

Lemma finalize_twice_releases_twice_witness :
  SFin (outcome_world (SInit 8192 Application (sample_world 0 65536)))
    = Returned tt (outcome_world (SFin (outcome_world (SInit 8192 Application (sample_world 0 65536))))) /\
  exists w3,
    SFin (outcome_world (SFin (outcome_world (SInit 8192 Application (sample_world 0 65536)))))
      = Returned tt w3 /\
    rl_refcount (w_rl w3)
      = rl_refcount (w_rl (outcome_world (SInit 8192 Application (sample_world 0 65536)))) - 2.
Proof.
  split; [ev|].
  destruct (proj2 (finalize_twice_releases_twice sample_secure_size
              (outcome_world (SInit 8192 Application (sample_world 0 65536)))
              (outcome_world (SFin (outcome_world (SInit 8192 Application (sample_world 0 65536)))))
              ltac:(ev))) as (w3 & H1 & _ & H3 & _).
  exists w3. split; [exact H1 | exact H3].
Defined.

End Kernel.

(** ** Properties of ProfileSelect::SelectionComplete *)

Module ProfileSelectFacts.
Import ProfileSelect.

Lemma object_bytes_length (o : UiReturnArg) :
  length (object_bytes o) = sizeof_UiReturnArg.
Proof.
  unfold object_bytes, le_bytes. rewrite length_app, length_map, length_seq.
  rewrite VectorSpec.length_to_list. reflexivity.
Qed.

(** C10: a present and valid UUID keeps the status and pushes a return
    argument with result 0 and that UUID; otherwise the status becomes
    ResultCancelledByUser and the return argument carries its raw value and
    the invalid UUID.  Either way exactly one buffer of sizeof(UiReturnArg)
    bytes is pushed and one state change is signalled. *)
Theorem selection_complete_result
    (IsValid : UUID -> bool) (InvalidUUID : UUID) (ResultCancelledByUser_raw : Z)
    (uuid : option UUID) (st : ProfileSelectState) :
  let st' := SelectionComplete IsValid InvalidUUID ResultCancelledByUser_raw uuid st in
  (forall u, uuid = Some u -> IsValid u = true ->
     status st' = status st /\
     broker_out_data st' = broker_out_data st ++ [object_bytes (mkUiReturnArg 0 u)]) /\
  ((forall u, uuid = Some u -> IsValid u = false) ->
     status st' = ResultCancelledByUser_raw /\
     broker_out_data st' = broker_out_data st ++
       [object_bytes (mkUiReturnArg ResultCancelledByUser_raw InvalidUUID)]) /\
  (exists data, broker_out_data st' = broker_out_data st ++ [data] /\
                length data = sizeof_UiReturnArg) /\
  broker_state_changed st' = S (broker_state_changed st).
Proof.
  intro st'. subst st'. unfold SelectionComplete.
  assert (Hfirst : forall o, firstn sizeof_UiReturnArg (object_bytes o) = object_bytes o)
    by (intro o; rewrite <- (object_bytes_length o); apply firstn_all).
  destruct uuid as [u|].
  - destruct (IsValid u) eqn:Hv; cbn -[object_bytes sizeof_UiReturnArg]; rewrite Hfirst.
    + split; [intros u' Hu _; injection Hu as <-; auto|].
      split; [intros Hinv; rewrite (Hinv u eq_refl) in Hv; discriminate|].
      split; [eexists; split; [reflexivity | apply object_bytes_length]|reflexivity].
    + split; [intros u' Hu Hv'; injection Hu as <-; congruence|].
      split; [intros _; auto|].
      split; [eexists; split; [reflexivity | apply object_bytes_length]|reflexivity].
  - cbn -[object_bytes sizeof_UiReturnArg]; rewrite Hfirst.
    split; [intros u' Hu; discriminate|].
    split; [intros _; auto|].
    split; [eexists; split; [reflexivity | apply object_bytes_length]|reflexivity].
Qed.

(** ** Properties of the applet's lifecycle *)

Import ProfileSelectApplet.

Section AppletFacts.

Variable IsValid : UUID -> bool.
Variable InvalidUUID : UUID.
Variable Cancel : Z.
Variable Applet_Initialize :
  list (list Z) -> option (ProfileSelectAppletVersion * list (list Z)).
Variable szV1 sz : nat.
Variable parseV1 parse : list Z -> UiSettingsFields.
Variable General : Z.

Local Abbreviation Init := (ProfileSelectApplet.Initialize Applet_Initialize szV1 sz).
Local Abbreviation Exec := (Execute parseV1 parse General).
Local Abbreviation Step :=
  (step IsValid InvalidUUID Cancel Applet_Initialize szV1 sz parseV1 parse General).
Local Abbreviation Run :=
  (run IsValid InvalidUUID Cancel Applet_Initialize szV1 sz parseV1 parse General).

Lemma Initialize_cases (a a1 : AppletState) :
  Init a = Some a1 ->
  exists version d rest,
    Applet_Initialize (broker_in_data a) = Some (version, d :: rest) /\
    user_config_size_ok szV1 sz version (length d) = true /\
    a1 = match version with
         | Version1 =>
           mkAppletState false (mkProfileSelectState 0 [] (broker_out_data (ps a))
               (broker_state_changed (ps a))) version d (config a) rest (frontend_closed a)
         | _ =>
           mkAppletState false (mkProfileSelectState 0 [] (broker_out_data (ps a))
               (broker_state_changed (ps a))) version (config_old a) d rest (frontend_closed a)
         end.
Proof.
  unfold ProfileSelectApplet.Initialize, with_ps; cbn.
  destruct (Applet_Initialize (broker_in_data a)) as [[version q]|]; [|discriminate].
  destruct q as [|d rest]; [discriminate|]. cbn.
  intro H. exists version, d, rest. split; [reflexivity|]. revert H.
  destruct version; cbn;
    try (destruct (Nat.eqb (length d) _) eqn:Hl; [|discriminate]);
    try discriminate;
    intro H; injection H as <-; auto.
Qed.

(** Initialize succeeds exactly when the base class's Initialize succeeds
    and leaves a user configuration storage whose size is the one asserted
    for the version. *)
Theorem initialize_succeeds_iff (a : AppletState) :
  (exists a1, Init a = Some a1) <->
  exists version d rest,
    Applet_Initialize (broker_in_data a) = Some (version, d :: rest) /\
    user_config_size_ok szV1 sz version (length d) = true.
Proof.
  split.
  - intros (a1 & H). destruct (Initialize_cases a a1 H) as (v & d & rest & H1 & H2 & _).
    eauto.
  - intros (version & d & rest & H1 & H2).
    unfold ProfileSelectApplet.Initialize, with_ps; cbn. rewrite H1. cbn.
    unfold user_config_size_ok in H2.
    destruct version; cbn; try rewrite H2; try discriminate; eexists; reflexivity.
Qed.

(** A successful Initialize resets the transaction (not complete, status
    ResultSuccess, no final data), consumes exactly the user configuration
    storage, pushes nothing, and the following Execute hands the frontend
    the parameters read from that configuration (purpose General for a
    version 1 applet) without changing the applet. *)
Theorem initialize_then_execute (a a1 : AppletState) :
  Init a = Some a1 ->
  exists version d rest,
    Applet_Initialize (broker_in_data a) = Some (version, d :: rest) /\
    broker_in_data a1 = rest /\
    TransactionComplete a1 = false /\ GetStatus a1 = 0 /\ final_data (ps a1) = [] /\
    broker_out_data (ps a1) = broker_out_data (ps a) /\
    Exec a1 = Some (a1, expected_parameters parseV1 parse General version d).
Proof.
  intros H. destruct (Initialize_cases a a1 H) as (version & d & rest & H1 & H2 & ->).
  exists version, d, rest. split; [exact H1|].
  destruct version; cbn in H2 |- *; try discriminate; repeat split.
Qed.

Lemma firstn_object_bytes_length (o : UiReturnArg) :
  length (firstn sizeof_UiReturnArg (object_bytes o)) = sizeof_UiReturnArg.
Proof.
  rewrite length_firstn, object_bytes_length. apply Nat.min_id.
Qed.

Lemma step_effect (op : Op) (a a' : AppletState) :
  complete a = false -> Step op a = Some a' ->
  complete a' = false /\
  (exists bufs,
     broker_out_data (ps a') = broker_out_data (ps a) ++ bufs /\
     Forall (fun d => length d = sizeof_UiReturnArg) bufs /\
     length bufs = (if is_selection_complete op then 1 else 0)%nat) /\
  broker_state_changed (ps a') =
    (broker_state_changed (ps a) + if is_selection_complete op then 1 else 0)%nat /\
  (op <> OpInitialize ->
     status (ps a') = if is_cancelled_selection IsValid op then Cancel else status (ps a)).
Proof.
  intros Hc. destruct op as [| | |uuid|]; cbn.
  - intros H. destruct (Initialize_cases a a' H) as (version & d & rest & _ & _ & ->).
    destruct version; cbn; (split; [reflexivity|]);
      (split; [exists []; rewrite app_nil_r; auto|]);
      (split; [lia|]); intros Hne; contradiction Hne; reflexivity.
  - unfold Execute. rewrite Hc.
    destruct (profile_select_version a); cbn; try discriminate;
      intro H; injection H as <-;
      (split; [exact Hc|]); (split; [exists []; rewrite app_nil_r; auto|]);
      (split; [lia | auto]).
  - discriminate.
  - intro H; injection H as <-. unfold SelectionComplete_applet, with_ps, SelectionComplete.
    destruct uuid as [u|]; [destruct (IsValid u) eqn:Hv|];
      cbn -[object_bytes sizeof_UiReturnArg]; rewrite ?Hv;
      (split; [exact Hc|]);
      (split; [eexists; split; [reflexivity|]; split;
               [constructor; [apply firstn_object_bytes_length | constructor] | reflexivity]|]);
      split; try lia; auto.
  - intro H; injection H as <-. cbn.
    (split; [exact Hc|]); (split; [exists []; rewrite app_nil_r; auto|]); split; [lia | auto].
Qed.

Lemma run_keeps_not_complete (ops : list Op) :
  forall a a', complete a = false -> Run ops a = Some a' -> complete a' = false.
Proof.
  induction ops as [|op ops IH]; cbn; intros a a' Hc H.
  - injection H as <-; exact Hc.
  - destruct (Step op a) as [a1|] eqn:Hs; [|discriminate].
    apply (IH a1); [apply (step_effect op a a1 Hc Hs) | exact H].
Qed.

(** No operation of the applet sets [complete]: after a successful
    Initialize, whatever operations follow (Execute, the frontend's
    callback, RequestExit), TransactionComplete stays false, so Execute
    never takes its branch that pushes [final_data]. *)
Theorem transaction_never_completes (ops : list Op) (a a' : AppletState) :
  Run (OpInitialize :: ops) a = Some a' -> TransactionComplete a' = false.
Proof.
  cbn. destruct (Init a) as [a1|] eqn:Hi; [|discriminate].
  destruct (Initialize_cases a a1 Hi) as (version & d & rest & _ & _ & Ha1).
  apply run_keeps_not_complete.
  subst a1; destruct version; reflexivity.
Qed.


(** After a successful Initialize and operations that do not initialize
    again, GetStatus is the raw ResultCancelledByUser when some frontend
    callback came without a valid UUID, and ResultSuccess otherwise: a
    later valid selection does not clear a cancellation. *)
Theorem status_after_initialize (ops : list Op) (a a' : AppletState) :
  Forall (fun op => op <> OpInitialize) ops ->
  Run (OpInitialize :: ops) a = Some a' ->
  GetStatus a' = if existsb (is_cancelled_selection IsValid) ops then Cancel else 0.
Proof.
  intros Hops. cbn. destruct (Init a) as [a1|] eqn:Hi; [|discriminate].
  destruct (Initialize_cases a a1 Hi) as (version & d & rest & _ & _ & Ha1).
  assert (Hc1 : complete a1 = false) by (subst a1; destruct version; reflexivity).
  assert (Hst : status (ps a1) = 0) by (subst a1; destruct version; reflexivity).
  unfold GetStatus. rewrite <- Hst. clear Hi Ha1 Hst.
  revert a1 Hc1. induction ops as [|op ops IH]; cbn; intros a1 Hc1 H.
  - injection H as <-. reflexivity.
  - inversion Hops as [|? ? Hne Hops']; subst.
    destruct (Step op a1) as [a2|] eqn:Hs; [|discriminate].
    destruct (step_effect op a1 a2 Hc1 Hs) as (Hc2 & _ & _ & Hst2).
    rewrite (IH Hops' a2 Hc2 H), (Hst2 Hne).
    destruct (is_cancelled_selection IsValid op); cbn; [|reflexivity].
    destruct (existsb _ _); reflexivity.
Qed.

End AppletFacts.

Local Abbreviation SInit :=
  (ProfileSelectApplet.Initialize sample_applet_initialize 2%nat 3%nat).
Local Abbreviation SRun :=
  (run sample_is_valid (sample_uuid 0) 636 sample_applet_initialize 2%nat 3%nat
     sample_parse sample_parse 0).

Lemma initialize_then_execute_witness :
  exists a1, SInit sample_applet = Some a1 /\
    TransactionComplete a1 = false /\ GetStatus a1 = 0 /\ final_data (ps a1) = [].
Proof.
  destruct (SInit sample_applet) as [a1|] eqn:E; [|vm_compute in E; discriminate].
  exists a1. split; [reflexivity|].
  destruct (initialize_then_execute sample_applet_initialize 2%nat 3%nat sample_parse
              sample_parse 0 sample_applet a1 E) as (v & d & rest & _ & _ & H1 & H2 & H3 & _).
  split; [exact H1 | split; [exact H2 | exact H3]].
Defined.

Lemma transaction_never_completes_witness :
  exists a', SRun [OpInitialize; OpSelectionComplete (Some (sample_uuid 1)); OpExecute]
               sample_applet = Some a' /\
    TransactionComplete a' = false.
Proof.
  destruct (SRun [OpInitialize; OpSelectionComplete (Some (sample_uuid 1)); OpExecute]
              sample_applet) as [a'|] eqn:E; [|vm_compute in E; discriminate].
  exists a'. split; [reflexivity|].
  exact (transaction_never_completes sample_is_valid (sample_uuid 0) 636
           sample_applet_initialize 2%nat 3%nat sample_parse sample_parse 0
           [OpSelectionComplete (Some (sample_uuid 1)); OpExecute] sample_applet a' E).
Defined.


Lemma status_after_initialize_witness :
  Forall (fun op => op <> OpInitialize) [OpSelectionComplete None; OpExecute] /\
  exists a', SRun [OpInitialize; OpSelectionComplete None; OpExecute] sample_applet = Some a' /\
    GetStatus a' = 636.
Proof.
  assert (Hf : Forall (fun op => op <> OpInitialize) [OpSelectionComplete None; OpExecute])
    by (repeat constructor; discriminate).
  split; [exact Hf|].
  destruct (SRun [OpInitialize; OpSelectionComplete None; OpExecute] sample_applet)
    as [a'|] eqn:E; [|vm_compute in E; discriminate].
  exists a'. split; [reflexivity|].
  rewrite (status_after_initialize sample_is_valid (sample_uuid 0) 636
             sample_applet_initialize 2%nat 3%nat sample_parse sample_parse 0
             [OpSelectionComplete None; OpExecute] sample_applet a' Hf E).
  reflexivity.
Defined.

End ProfileSelectFacts.
